(** * The get-order-book strategy of hummingbot

    A shallow embedding of
    [hummingbot/strategy/dev_1_get_order_book/dev_1_get_order_book.py]:
    the class [GetOrderBookStrategy] with its readiness gate ([tick]), its
    stop handler ([stop]), its status report ([format_status]), the order
    book rendering ([get_order_book]) and the live refresh coroutine
    ([show_order_book]).

    The strategy object is a record; its methods are functions that take the
    object and return the new object together with the list of effects they
    performed on the collaborators (logger, notifier, display surface, task
    scheduler).  The connector is a shared mutable object owned by the host:
    every method receives the state the connector has at the moment of the
    call. *)

From Stdlib Require Import ZArith QArith String Ascii List Lia.
From stdpp Require Import gmap strings list pretty.

Local Open Scope Z_scope.

(** ** Python strings *)

Module PyStr.

(** The line feed, written [\n] in the source. *)
Definition nl : string := String "010" EmptyString.

(** [sep.join(parts)] *)
Definition join (sep : string) (parts : list string) : string :=
  String.concat sep parts.

(** [s.split("\n")]: the pieces between the line feeds; never empty. *)
Fixpoint split_nl (s : string) : list string :=
  match s with
  | EmptyString => [EmptyString]
  | String c rest =>
      if Ascii.eqb c "010" then EmptyString :: split_nl rest
      else match split_nl rest with
           | [] => [String c EmptyString]
           | piece :: pieces => String c piece :: pieces
           end
  end.

(** [s.rjust(width)] *)
Definition rjust (width : nat) (s : string) : string :=
  String.concat "" (replicate (width - String.length s) " "%string) +:+ s.

(** [s.upper()] on the ASCII letters; other characters are kept. *)
Definition upper_ascii (c : ascii) : ascii :=
  let n := N_of_ascii c in
  if ((97 <=? n) && (n <=? 122))%N then ascii_of_N (n - 32) else c.

Fixpoint upper (s : string) : string :=
  match s with
  | EmptyString => EmptyString
  | String c rest => String (upper_ascii c) (upper rest)
  end.

End PyStr.

(** ** The part of pandas that [get_order_book] uses

    A frame is its column labels and its rows; a cell is [None] where pandas
    has NaN.  The row labels are the default ones (0, 1, 2, ...), which is
    what the snapshots of an order book carry and what [head] preserves. *)

Module Pandas.

Record DataFrame (A : Type) : Type := mkFrame {
  columns : list string;
  rows : list (list (option A))
}.
Arguments mkFrame {A} _ _.
Arguments columns {A} _.
Arguments rows {A} _.

Section Frames.
Context {A : Type}.

(** [df.head(n)]: the first [n] rows, and for a negative [n] all rows but
    the last [-n]. *)
Definition head (n : Z) (df : DataFrame A) : DataFrame A :=
  let k := if 0 <=? n then Z.to_nat n
           else (length (rows df) - Z.to_nat (- n))%nat in
  mkFrame (columns df) (take k (rows df)).

(** [df.rename(columns=mapping, inplace=True)] *)
Definition rename (mapping : gmap string string) (df : DataFrame A) : DataFrame A :=
  mkFrame ((fun c => default c (mapping !! c)) <$> columns df) (rows df).

(** The row with label [i], or a row of NaN when the frame has none. *)
Definition row_or_nan (df : DataFrame A) (i : nat) : list (option A) :=
  default (replicate (length (columns df)) None) (rows df !! i).

(** [pd.concat([a, b], axis=1)]: the frames side by side, aligned on the row
    labels; a frame that lacks a label contributes NaN cells. *)
Definition concat_axis1 (a b : DataFrame A) : DataFrame A :=
  mkFrame (columns a ++ columns b)
          ((fun i => row_or_nan a i ++ row_or_nan b i)
             <$> seq 0 (Nat.max (length (rows a)) (length (rows b)))).

(** [df.to_string(index=False)] for numeric columns: the labels get a
    leading blank, every column is right-justified to its widest entry, and
    the columns are joined with one blank.  [fmt] renders a number. *)
Section Render.
Variable fmt : A -> string.

Definition cell_text (c : option A) : string :=
  match c with
  | Some v => fmt v
  | None => "NaN"
  end.

Definition header_texts (df : DataFrame A) : list string :=
  (fun c => " " +:+ c) <$> columns df.

Definition column_width (df : DataFrame A) (j : nat) (hdr : string) : nat :=
  foldr Nat.max (String.length hdr)
        ((fun r => String.length (cell_text (default None (r !! j)))) <$> rows df).

Definition widths (df : DataFrame A) : list nat :=
  imap (column_width df) (header_texts df).

Definition render_line (ws : list nat) (texts : list string) : string :=
  PyStr.join " " (zip_with PyStr.rjust ws texts).

Definition to_string (df : DataFrame A) : string :=
  match rows df with
  | [] => "Empty DataFrame" +:+ PyStr.nl +:+
          "Columns: [" +:+ PyStr.join ", " (columns df) +:+ "]" +:+ PyStr.nl +:+
          "Index: []"
  | _ :: _ =>
      let ws := widths df in
      PyStr.join PyStr.nl
        (render_line ws (header_texts df)
           :: ((fun r => render_line ws (cell_text <$> r)) <$> rows df))
  end.

End Render.
End Frames.
End Pandas.

(** ** Collaborators of the strategy *)

(** The handle that [safe_ensure_future] returns for a scheduled coroutine. *)
Definition Task : Type := nat.

(** The clock the host passes to [stop]; the strategy does not read it. *)
Record Clock : Type := mkClock { tick_size : Q }.

(** The exceptions of the model; all of them derive from Python's
    [Exception], so [except Exception] catches each. *)
Inductive Exception : Type :=
| ValueError (msg : string)
| KeyError (key : string)
| AttributeError (attr : string)
| TypeError (msg : string)
| RuntimeError (msg : string).

Inductive Result (A : Type) : Type :=
| Ok (a : A)
| Raise (e : Exception).
Arguments Ok {A} _.
Arguments Raise {A} _.

(** What a call of [safe_ensure_future] does: it hands back the handle of the
    new task, or it raises. *)
Inductive SpawnResult : Type :=
| Spawned (t : Task)
| SpawnRaised (e : Exception).

(** The effects of the strategy on its collaborators, in program order. *)
Inductive Event : Type :=
| LogWarning (msg : string)                  (* self.logger().warning(msg) *)
| LogError (msg : string)                    (* self.logger().error(msg) *)
| Notify (msg : string)                      (* self.notify_hb_app(msg) *)
| TaskCreated (t : Task)                     (* safe_ensure_future(...) returned t *)
| TaskCancel (t : Task)                      (* t.cancel() *)
| StopLiveUpdate                             (* main_app.stop_live_update() *)
| SetLiveUpdates (b : bool)                  (* main_app.app.live_updates = b *)
| ClsDisplayDelay (text : string) (delay : Q) (* main_app.cls_display_delay(text, delay) *).

(** How a coroutine stands after the part of its run that was observed. *)
Inductive Outcome : Type :=
| Returned                 (* ran to its end *)
| Raised (e : Exception)   (* left by an exception *)
| Cancelled                (* asyncio.CancelledError delivered at an await *)
| Suspended                (* still waiting at an await *).

Definition is_task_created (e : Event) : bool :=
  match e with TaskCreated _ => true | _ => false end.

Definition is_warning (e : Event) : bool :=
  match e with LogWarning _ => true | _ => false end.

(** The events that touch the display surface of the host application. *)
Definition is_display_op (e : Event) : bool :=
  match e with
  | StopLiveUpdate | SetLiveUpdates _ | ClsDisplayDelay _ _ => true
  | _ => false
  end.

Definition is_render (e : Event) : bool :=
  match e with ClsDisplayDelay _ _ => true | _ => false end.

Definition count_events (p : Event -> bool) (evs : list Event) : nat :=
  length (filter (fun e => p e = true) evs).

(** ** The strategy *)

Section Strategy.

(** The numbers of the order book and how the connector's frames print them. *)
Context {D : Type}.
Variable fmt : D -> string.
(** [str(x)] of a balance. *)
Variable str_balance : D -> string.

Record Level : Type := mkLevel { price : D; amount : D }.

(** [order_book.snapshot]: the bids frame and the asks frame. *)
Record OrderBook : Type := mkOrderBook { snapshot : list Level * list Level }.

(** The state of the connector at one moment. *)
Record Exchange : Type := mkExchange {
  name : string;
  ready : bool;
  order_books : gmap string OrderBook;
  get_balance : string -> D
}.

Record MarketTradingPairTuple : Type := mkMarketTradingPairTuple {
  market : Exchange;
  trading_pair : string;
  base_asset : string;
  quote_asset : string
}.

(** The attributes that [__init__] assigns.  [self._exchange] is a reference
    to the connector; the state behind it is an argument of each method. *)
Record GetOrderBookStrategy : Type := mkStrategy {
  _market_info : list (string * MarketTradingPairTuple);
  _trading_pair : string;
  _lines : Z;
  _ready : bool;
  _get_order_book_task : option Task
}.

Definition __init__ (market_info : list (string * MarketTradingPairTuple))
    (trading_pair : string) (lines : Z) : GetOrderBookStrategy :=
  {| _market_info := market_info;
     _trading_pair := trading_pair;
     _lines := lines;
     _ready := false;
     _get_order_book_task := None |}.

Definition set_ready (b : bool) (self : GetOrderBookStrategy) : GetOrderBookStrategy :=
  {| _market_info := _market_info self;
     _trading_pair := _trading_pair self;
     _lines := _lines self;
     _ready := b;
     _get_order_book_task := _get_order_book_task self |}.

Definition set_task (t : option Task) (self : GetOrderBookStrategy) : GetOrderBookStrategy :=
  {| _market_info := _market_info self;
     _trading_pair := _trading_pair self;
     _lines := _lines self;
     _ready := _ready self;
     _get_order_book_task := t |}.

(** *** Attribute access by name

    Python resolves [self.x] at run time in the attributes of the object;
    a name that was never assigned raises AttributeError. *)
Inductive PyVal : Type :=
| VConnector
| VMarketInfo (infos : list (string * MarketTradingPairTuple))
| VStr (s : string)
| VInt (z : Z)
| VBool (b : bool)
| VTask (t : option Task).

Definition getattr (self : GetOrderBookStrategy) (attr : string) : option PyVal :=
  if String.eqb attr "_exchange" then Some VConnector
  else if String.eqb attr "_market_info" then Some (VMarketInfo (_market_info self))
  else if String.eqb attr "_trading_pair" then Some (VStr (_trading_pair self))
  else if String.eqb attr "_lines" then Some (VInt (_lines self))
  else if String.eqb attr "_ready" then Some (VBool (_ready self))
  else if String.eqb attr "_get_order_book_task" then Some (VTask (_get_order_book_task self))
  else None.

(** *** format_status *)
Definition asset_lines (asset : string) (info : string * MarketTradingPairTuple) : list string :=
  [ ""%string; "  Assets:"%string;
    "    " +:+ asset +:+ "    " +:+ str_balance (get_balance (market info.2) asset) ].

Definition format_status (self : GetOrderBookStrategy) : Result string :=
  if negb (_ready self) then Ok "Exchange connector(s) are not ready."%string
  else
    match getattr self "_market_infos" with
    | None => Raise (AttributeError "_market_infos")
    | Some (VMarketInfo []) => Ok (PyStr.join PyStr.nl [])
    | Some (VMarketInfo infos) =>
        match getattr self "_asset" with
        | None => Raise (AttributeError "_asset")
        | Some (VStr asset) =>
            Ok (PyStr.join PyStr.nl (flat_map (asset_lines asset) infos))
        | Some _ => Raise (TypeError "get_balance")
        end
    | Some _ => Raise (AttributeError "values")
    end.

(** *** get_order_book *)

(** [side[['price', 'amount']]] *)
Definition price_amount (side : list Level) : Pandas.DataFrame D :=
  Pandas.mkFrame ["price"; "amount"]%string
                 ((fun l => [Some (price l); Some (amount l)]) <$> side).

Definition bid_names : gmap string string :=
  {[ "price"%string := "bid_price"%string; "amount"%string := "bid_volume"%string ]}.

Definition ask_names : gmap string string :=
  {[ "price"%string := "ask_price"%string; "amount"%string := "ask_volume"%string ]}.

(** The frame named [joined_df] in the source. *)
Definition joined_df (lines : Z) (order_book : OrderBook) : Pandas.DataFrame D :=
  let bids := Pandas.head lines (price_amount (snapshot order_book).1) in
  let bids := Pandas.rename bid_names bids in
  let asks := Pandas.head lines (price_amount (snapshot order_book).2) in
  let asks := Pandas.rename ask_names asks in
  Pandas.concat_axis1 bids asks.

Definition header (ex : Exchange) (self : GetOrderBookStrategy) : string :=
  "  market: " +:+ name ex +:+ " " +:+ _trading_pair self +:+ PyStr.nl.

Definition get_order_book (self : GetOrderBookStrategy) (ex : Exchange) : Result string :=
  match order_books ex !! _trading_pair self with
  | None => Raise (KeyError (_trading_pair self))
  | Some order_book =>
      let text_lines :=
        (fun line => "    " +:+ line)
          <$> PyStr.split_nl (Pandas.to_string fmt (joined_df (_lines self) order_book)) in
      Ok (header ex self +:+ PyStr.join PyStr.nl text_lines)
  end.

(** *** show_order_book

    The coroutine gives up control only at its awaits: at
    [stop_live_update()] and at each [cls_display_delay(...)].  While it
    waits the host and the user act on the shared objects; when it is
    resumed it finds the [live_updates] flag and the connector as they left
    them, or it finds that its task was cancelled. *)
Inductive Resume : Type :=
| Resumed (live_updates : bool) (ex : Exchange)
| Cancel.

Definition invalid_market (self : GetOrderBookStrategy) (ex : Exchange) : string :=
  "Invalid market " +:+ _trading_pair self +:+ " on " +:+ name ex +:+ " connector.".

Definition escape_hint : string :=
  PyStr.nl +:+ PyStr.nl +:+ " Press escape key to stop update.".

Definition stopped_notice : string := "Stopped live orderbook display update.".

(** [while main_app.app.live_updates: await main_app.cls_display_delay(...)],
    entered with the flag at [live_updates] and the connector at [ex];
    [sched] is what the coroutine finds at each resumption. *)
Fixpoint live_loop (self : GetOrderBookStrategy) (live_updates : bool)
    (ex : Exchange) (sched : list Resume) : list Event * Outcome :=
  if live_updates then
    match get_order_book self ex with
    | Raise e => ([], Raised e)
    | Ok text =>
        let shown := ClsDisplayDelay (text +:+ escape_hint) (1 # 2) in
        match sched with
        | [] => ([shown], Suspended)
        | Cancel :: _ => ([shown], Cancelled)
        | Resumed live_updates' ex' :: sched' =>
            let '(evs, out) := live_loop self live_updates' ex' sched' in
            (shown :: evs, out)
        end
    end
  else ([], Returned).

Definition show_order_book (self : GetOrderBookStrategy) (ex : Exchange)
    (sched : list Resume) : list Event * Outcome :=
  match order_books ex !! _trading_pair self with
  | None =>
      ([LogError (invalid_market self ex)], Raised (ValueError (invalid_market self ex)))
  | Some _ =>
      match sched with
      | [] => ([StopLiveUpdate], Suspended)
      | Cancel :: _ => ([StopLiveUpdate], Cancelled)
      | Resumed _ ex' :: sched' =>
          let '(evs, out) := live_loop self true ex' sched' in
          let evs := StopLiveUpdate :: SetLiveUpdates true :: evs in
          match out with
          | Returned => (evs ++ [Notify stopped_notice], Returned)
          | _ => (evs, out)
          end
      end
  end.

(** *** stop *)
Definition stop (self : GetOrderBookStrategy) (clock : Clock)
    : GetOrderBookStrategy * list Event :=
  match _get_order_book_task self with
  | Some t => (set_task None self, [TaskCancel t])
  | None => (self, [])
  end.

(** *** tick

    [ex] is the connector as the tick finds it and [spawn] what
    [safe_ensure_future] does if the tick calls it. *)
Definition not_ready_warning (ex : Exchange) : string :=
  name ex +:+ " is not ready. Please wait...".

Definition ready_notice (ex : Exchange) : string :=
  PyStr.upper (name ex) +:+ " Connector is ready!".

Definition start_error : string := "Error starting live order book. ".

Definition tick (self : GetOrderBookStrategy) (ex : Exchange) (spawn : SpawnResult)
    (timestamp : Q) : GetOrderBookStrategy * list Event :=
  if _ready self then (self, [])
  else if negb (_ready self) && negb (ready ex) then
    (self, [LogWarning (not_ready_warning ex)])
  else
    match _get_order_book_task self with
    | None =>
        match spawn with
        | Spawned t =>
            (set_ready true (set_task (Some t) self),
             [Notify (ready_notice ex); TaskCreated t])
        | SpawnRaised _ =>
            (set_ready false self,
             [Notify (ready_notice ex); LogError start_error])
        end
    | Some _ => (self, [Notify (ready_notice ex)])
    end.

(** *** The calls of the host, one after the other *)
Inductive Call : Type :=
| CallTick (ex : Exchange) (spawn : SpawnResult) (timestamp : Q)
| CallStop (clock : Clock).

Definition call (self : GetOrderBookStrategy) (c : Call)
    : GetOrderBookStrategy * list Event :=
  match c with
  | CallTick ex spawn timestamp => tick self ex spawn timestamp
  | CallStop clock => stop self clock
  end.

Fixpoint run (self : GetOrderBookStrategy) (calls : list Call)
    : GetOrderBookStrategy * list Event :=
  match calls with
  | [] => (self, [])
  | c :: calls' =>
      let '(self', evs) := call self c in
      let '(self'', evs') := run self' calls' in
      (self'', evs ++ evs')
  end.

(** The connector of a tick and whether the tick saw it ready. *)
Definition tick_ready (c : Call) : bool :=
  match c with
  | CallTick ex _ _ => ready ex
  | CallStop _ => false
  end.

Definition is_tick (c : Call) : bool :=
  match c with CallTick _ _ _ => true | CallStop _ => false end.

(** The calls of [safe_ensure_future] in this call sequence all return. *)
Definition spawn_returns (c : Call) : bool :=
  match c with
  | CallTick _ (SpawnRaised _) _ => false
  | _ => true
  end.

(** The ticks of a call sequence that saw the connector ready. *)
Definition ready_ticks (calls : list Call) : nat :=
  length (filter (fun c => tick_ready c = true) calls).

(** The warning of a tick that finds neither the strategy nor the connector
    ready. *)
Definition tick_warning (c : Call) : list Event :=
  match c with
  | CallTick ex _ _ => [LogWarning (not_ready_warning ex)]
  | CallStop _ => []
  end.

(** The tasks a run created. *)
Definition tasks_created (evs : list Event) : nat :=
  count_events is_task_created evs.

(** The lines of the table under the header, as [get_order_book] indents
    them. *)
Definition table_text (lines : Z) (order_book : OrderBook) : string :=
  PyStr.join PyStr.nl
    ((fun line => "    " +:+ line)
       <$> PyStr.split_nl (Pandas.to_string fmt (joined_df lines order_book))).

End Strategy.

(** ** Sample data *)

Module Sample.

Definition lv (p a : Z) : Level := mkLevel p a.

(** Three levels a side. *)
Definition book : OrderBook :=
  mkOrderBook ([lv 100 1; lv 99 2; lv 98 3], [lv 101 1; lv 102 2; lv 103 3]).

Definition binance (is_ready : bool) : Exchange :=
  mkExchange "binance" is_ready {[ "BTC-USDT"%string := book ]} (fun _ => 0).

(** A connector that does not list the pair. *)
Definition kucoin : Exchange :=
  mkExchange "kucoin" true {[ "ETH-USDT"%string := book ]} (fun _ => 0).

Definition fresh : GetOrderBookStrategy (D := Z) :=
  __init__ [("binance"%string, mkMarketTradingPairTuple (binance true) "BTC-USDT" "BTC" "USDT")]
           "BTC-USDT" 2.

Definition clock : Clock := mkClock 1.

Definition no_loop : Exception := RuntimeError "no running event loop".

(** The strategy after the tick that launched task 1. *)
Definition launched : GetOrderBookStrategy (D := Z) :=
  (tick fresh (binance true) (Spawned 1%nat) 1).1.

(** One tick that sees the connector ready while [safe_ensure_future]
    raises. *)
Definition failed_launch : list (Call (D := Z)) :=
  [CallTick (binance true) (SpawnRaised no_loop) 1].

(** A tick before the connector is ready and two after. *)
Definition three_ticks : list (Call (D := Z)) :=
  [CallTick (binance false) (Spawned 7%nat) 1;
   CallTick (binance true) (Spawned 8%nat) 2;
   CallTick (binance true) (Spawned 9%nat) 3].

(** Two ticks before the connector is ready. *)
Definition waiting_ticks : list (Call (D := Z)) :=
  [CallTick (binance false) (Spawned 7%nat) 1;
   CallTick (binance false) (SpawnRaised no_loop) 2].

(** What one render of [book] hands to the display. *)
Definition shown : string :=
  (header (binance true) fresh +:+ table_text pretty 2 book) +:+ escape_hint.

End Sample.

(** ** The logger of the module

    [gob_logger] is a global of the module, [None] until the first call of
    [GetOrderBookStrategy.logger()]. *)





(** ** Observations on runs *)

Section Observations.
Context {D : Type}.

Definition is_task_cancel (e : Event) : bool :=
  match e with TaskCancel _ => true | _ => false end.

(** The tasks a run cancelled. *)
Definition tasks_cancelled (evs : list Event) : nat :=
  count_events is_task_cancel evs.

(** The tick calls [safe_ensure_future] and the call raises. *)
Definition spawn_raises (c : Call (D := D)) : bool :=
  match c with
  | CallTick _ (SpawnRaised _) _ => true
  | _ => false
  end.

(** What a tick emits when it sees the connector ready and the launch
    raises. *)
Definition launch_failure (c : Call (D := D)) : list Event :=
  match c with
  | CallTick ex _ _ => [Notify (ready_notice ex); LogError start_error]
  | CallStop _ => []
  end.

(** The connector that a resumption finds still lists the pair. *)
Definition lists_pair (self : GetOrderBookStrategy (D := D)) (r : Resume (D := D)) : bool :=
  match r with
  | Resumed _ ex => bool_decide (is_Some (order_books ex !! _trading_pair self))
  | Cancel => true
  end.

(** The paced display of one rendered text. *)
Definition paced (text : string) : Event :=
  ClsDisplayDelay (text +:+ escape_hint) (1 # 2).



(** The cells of one side of the table at a row: the level, or NaN. *)
Definition side_cells (l : option (Level (D := D))) : list (option D) :=
  match l with
  | Some l => [Some (price l); Some (amount l)]
  | None => [None; None]
  end.

End Observations.

(** ** More sample data *)

Module Scenario.

(** A launch, then two stops. *)
Definition launch_then_stop : list (Call (D := Z)) :=
  Sample.three_ticks ++ [CallStop Sample.clock; CallStop Sample.clock].

(** Two ticks that see the connector ready while the launch raises. *)
Definition failing_ticks : list (Call (D := Z)) :=
  [CallTick (Sample.binance true) (SpawnRaised Sample.no_loop) 1;
   CallTick (Sample.binance true) (SpawnRaised Sample.no_loop) 2].

(** Stops and a tick before the connector is ready. *)
Definition early_stop : list (Call (D := Z)) :=
  [CallStop Sample.clock;
   CallTick (Sample.binance false) (Spawned 7%nat) 1;
   CallStop Sample.clock].

(** One bid against three asks. *)
Definition thin_book : OrderBook :=
  mkOrderBook ([Sample.lv 100 1], [Sample.lv 101 1; Sample.lv 102 2; Sample.lv 103 3]).

(** The text of [get_order_book] for [Sample.book]. *)
Definition text : string :=
  header (Sample.binance true) Sample.fresh +:+ table_text pretty 2 Sample.book.

(** The effects of a coroutine that has rendered once. *)
Definition one_render : list Event :=
  [StopLiveUpdate; SetLiveUpdates true; ClsDisplayDelay Sample.shown (1 # 2)].

End Scenario.

(** ** Properties *)

Section Properties.
Context {D : Type}.
Variable fmt : D -> string.
Implicit Types (self : GetOrderBookStrategy (D := D)) (ex : Exchange (D := D)).
Implicit Types (calls : list (Call (D := D))) (evs : list Event).

(** *** Record updates *)

Lemma set_ready_same self : set_ready (_ready self) self = self.
Proof. by destruct self. Qed.

Lemma set_task_same self : set_task (_get_order_book_task self) self = self.
Proof. by destruct self. Qed.

(** *** Counting events *)

Lemma count_events_app p evs evs' :
  count_events p (evs ++ evs') = (count_events p evs + count_events p evs')%nat.
Proof. unfold count_events. by rewrite filter_app, length_app. Qed.

Lemma tasks_created_app evs evs' :
  tasks_created (evs ++ evs') = (tasks_created evs + tasks_created evs')%nat.
Proof. apply count_events_app. Qed.

(** *** Single calls *)

Lemma tick_when_ready self ex spawn timestamp :
  _ready self = true -> tick self ex spawn timestamp = (self, []).
Proof. intros H. unfold tick. by rewrite H. Qed.

Lemma tick_connector_not_ready self ex spawn timestamp :
  _ready self = false -> ready ex = false ->
  tick self ex spawn timestamp = (self, [LogWarning (not_ready_warning ex)]).
Proof. intros H1 H2. unfold tick. by rewrite H1, H2. Qed.

Lemma tick_launch self ex t timestamp :
  _ready self = false -> _get_order_book_task self = None -> ready ex = true ->
  tick self ex (Spawned t) timestamp =
    (set_ready true (set_task (Some t) self),
     [Notify (ready_notice ex); TaskCreated t]).
Proof. intros H1 H2 H3. unfold tick. by rewrite H1, H2, H3. Qed.

Lemma tick_launch_raises self ex e timestamp :
  _ready self = false -> _get_order_book_task self = None -> ready ex = true ->
  tick self ex (SpawnRaised e) timestamp =
    (self, [Notify (ready_notice ex); LogError start_error]).
Proof.
  intros H1 H2 H3. unfold tick. rewrite H1, H2, H3. simpl.
  by rewrite <- H1, set_ready_same.
Qed.

Lemma stop_ready self clock : _ready (stop self clock).1 = _ready self.
Proof. unfold stop. by destruct (_get_order_book_task self). Qed.

Lemma stop_no_task self clock : _get_order_book_task (stop self clock).1 = None.
Proof. unfold stop. by destruct (_get_order_book_task self) eqn:E. Qed.

Lemma stop_creates_nothing self clock : tasks_created (stop self clock).2 = 0%nat.
Proof. unfold stop. by destruct (_get_order_book_task self). Qed.

(** *** Call sequences *)

Lemma run_app self calls calls' :
  run self (calls ++ calls') =
    ((run (run self calls).1 calls').1,
     (run self calls).2 ++ (run (run self calls).1 calls').2).
Proof.
  revert self. induction calls as [|c calls IH]; intros self; simpl.
  - by destruct (run self calls').
  - destruct (call self c) as [self1 evs1]. rewrite IH.
    destruct (run self1 calls) as [self2 evs2]. simpl.
    destruct (run self2 calls') as [self3 evs3]. simpl.
    by rewrite app_assoc.
Qed.

Lemma run_cons self c calls :
  run self (c :: calls) =
    ((run (call self c).1 calls).1, (call self c).2 ++ (run (call self c).1 calls).2).
Proof.
  simpl. destruct (call self c) as [self1 evs1]. simpl.
  by destruct (run self1 calls) as [self2 evs2].
Qed.

(** Ticks that find the connector not ready leave a strategy that is not
    ready as it is, and each logs its warning. *)
Lemma run_waiting self calls :
  _ready self = false ->
  Forall (fun c => is_tick c = true) calls ->
  Forall (fun c => tick_ready c = false) calls ->
  run self calls = (self, flat_map tick_warning calls).
Proof.
  intros Hr Ht Hn. induction calls as [|c calls IH]; [done|].
  inversion Ht as [|? ? Hc Ht']; inversion Hn as [|? ? Hc' Hn']; subst.
  rewrite run_cons. destruct c as [ex spawn ts|clock]; [|done].
  simpl in Hc'. simpl. rewrite tick_connector_not_ready by done. simpl.
  by rewrite IH.
Qed.

(** Once the strategy is ready, ticks do nothing at all. *)
Lemma run_ticks_when_ready self calls :
  _ready self = true ->
  Forall (fun c => is_tick c = true) calls ->
  run self calls = (self, []).
Proof.
  intros Hr Ht. induction calls as [|c calls IH]; [done|].
  inversion Ht as [|? ? Hc Ht']; subst.
  rewrite run_cons. destruct c as [ex spawn ts|clock]; [|done].
  simpl. rewrite tick_when_ready by done. simpl. by rewrite IH.
Qed.

(** Once the strategy is ready it stays ready and no call creates a task. *)
Lemma run_when_ready self calls :
  _ready self = true ->
  _ready (run self calls).1 = true /\ tasks_created (run self calls).2 = 0%nat.
Proof.
  revert self. induction calls as [|c calls IH]; intros self Hr; [done|].
  rewrite run_cons. simpl. rewrite tasks_created_app.
  destruct c as [ex spawn ts|clock]; simpl.
  - rewrite tick_when_ready by done. simpl. by apply IH.
  - destruct (IH (stop self clock).1) as [H1 H2]; [by rewrite stop_ready|].
    split; [done|]. by rewrite H2, stop_creates_nothing.
Qed.

(** Whatever the host calls and whatever [safe_ensure_future] does, a
    strategy that starts without a task creates at most one. *)
Lemma run_creates_at_most_one self calls :
  _ready self = false -> _get_order_book_task self = None ->
  (tasks_created (run self calls).2 <= 1)%nat.
Proof.
  revert self. induction calls as [|c calls IH]; intros self Hr Ht.
  - simpl. unfold tasks_created, count_events. simpl. lia.
  - rewrite run_cons. simpl. rewrite tasks_created_app.
    destruct c as [ex spawn ts|clock]; simpl.
    + destruct (ready ex) eqn:Hex.
      * destruct spawn as [t|e].
        -- rewrite tick_launch by done. simpl.
           destruct (run_when_ready (set_ready true (set_task (Some t) self)) calls)
             as [_ H0]; [done|].
           rewrite H0. by vm_compute.
        -- rewrite tick_launch_raises by done. simpl. by apply IH.
      * rewrite tick_connector_not_ready by done. simpl. by apply IH.
    + unfold stop. rewrite Ht. simpl. by apply IH.
Qed.

(** The first tick that saw the connector ready. *)
Lemma first_ready_tick calls :
  (1 <= ready_ticks calls)%nat ->
  exists before c after,
    calls = before ++ c :: after /\
    Forall (fun c => tick_ready c = false) before /\
    tick_ready c = true.
Proof.
  induction calls as [|c calls IH]; intros H.
  - unfold ready_ticks in H. simpl in H. lia.
  - destruct (tick_ready c) eqn:Hc.
    + exists [], c, calls. by repeat split.
    + unfold ready_ticks in *. rewrite filter_cons_False in H by congruence.
      destruct (IH H) as (before & c' & after & -> & Hb & Hc').
      exists (c :: before), c', after. repeat split; [|done]. by constructor.
Qed.

Lemma warnings_create_nothing calls :
  tasks_created (flat_map tick_warning calls) = 0%nat.
Proof.
  induction calls as [|c calls IH]; [done|].
  simpl. rewrite tasks_created_app, IH. by destruct c.
Qed.

Lemma warnings_are_warnings calls :
  Forall (fun e => is_warning e = true) (flat_map tick_warning calls).
Proof.
  induction calls as [|c calls IH]; [by constructor|].
  simpl. apply Forall_app. split; [|done].
  destruct c; by repeat constructor.
Qed.

(** *** The refresh coroutine *)

Lemma live_loop_flag_off self ex sched :
  live_loop fmt self false ex sched = ([], Returned).
Proof. by destruct sched. Qed.

(** A loop that waits in its paced display returns as soon as it is resumed
    with the flag off: it renders nothing more. *)
Lemma live_loop_flag_cleared self sched :
  forall live_updates ex evs ex' later,
    live_loop fmt self live_updates ex sched = (evs, Suspended) ->
    live_loop fmt self live_updates ex (sched ++ Resumed false ex' :: later)
      = (evs, Returned).
Proof.
  induction sched as [|r sched IH]; intros live_updates ex evs ex' later H.
  - simpl in *. destruct live_updates; [|done].
    destruct (get_order_book fmt self ex) as [text|e]; [|done].
    inversion H. by rewrite live_loop_flag_off.
  - simpl in *. destruct live_updates; [|done].
    destruct (get_order_book fmt self ex) as [text|e]; [|done].
    destruct r as [live_updates' ex1|]; [|done].
    destruct (live_loop fmt self live_updates' ex1 sched) as [evs1 out1] eqn:E.
    inversion H; subst.
    by rewrite (IH _ _ _ ex' later E).
Qed.

(** *** The claims about [tick] and [stop] *)

(** C1, as amended.  Take a strategy as [__init__] leaves it, not ready and
    without a task.  No sequence of calls creates more than one task.  For
    every sequence of ticks of which N >= 1 see the connector ready and in
    which [safe_ensure_future] does not raise, exactly one task is created:
    the ticks before the first ready one only warn, the first ready tick
    records the handle and sets [_ready], and the ticks after it return at
    once, with no effect and no change of state. *)
Theorem tick_launches_exactly_once self calls :
  _ready self = false ->
  _get_order_book_task self = None ->
  (tasks_created (run self calls).2 <= 1)%nat /\
  (Forall (fun c => is_tick c = true) calls ->
   (1 <= ready_ticks calls)%nat ->
   Forall (fun c => spawn_returns c = true) calls ->
   exists before ex t timestamp after,
     calls = before ++ CallTick ex (Spawned t) timestamp :: after /\
     Forall (fun c => tick_ready c = false) before /\
     ready ex = true /\
     run self (before ++ [CallTick ex (Spawned t) timestamp])
       = (set_ready true (set_task (Some t) self),
          flat_map tick_warning before ++ [Notify (ready_notice ex); TaskCreated t]) /\
     run (set_ready true (set_task (Some t) self)) after
       = (set_ready true (set_task (Some t) self), []) /\
     (run self calls).1 = set_ready true (set_task (Some t) self) /\
     tasks_created (run self calls).2 = 1%nat).
Proof.
  intros Hr Hnone. split; [by apply run_creates_at_most_one|].
  intros Hticks Hn Hspawn.
  destruct (first_ready_tick calls Hn) as (before & c & after & -> & Hb & Hc).
  apply Forall_app in Hticks as [Ht1 Ht2]. apply Forall_cons in Ht2 as [_ Ht2].
  apply Forall_app in Hspawn as [_ Hs2]. apply Forall_cons in Hs2 as [Hs _].
  destruct c as [ex spawn timestamp|clock]; [|done].
  destruct spawn as [t|e]; [|done]. simpl in Hc.
  exists before, ex, t, timestamp, after.
  split; [done|]. split; [done|]. split; [done|].
  set (launched := set_ready true (set_task (Some t) self)).
  assert (Hfirst : run self (before ++ [CallTick ex (Spawned t) timestamp])
            = (launched, flat_map tick_warning before
                           ++ [Notify (ready_notice ex); TaskCreated t])).
  { rewrite run_app. rewrite (run_waiting self before) by done. simpl.
    rewrite tick_launch by done. reflexivity. }
  assert (Hafter : run launched after = (launched, []))
    by by apply run_ticks_when_ready.
  repeat split; [done..| |].
  - rewrite (cons_middle _ before after), app_assoc, run_app, Hfirst. simpl.
    by rewrite Hafter.
  - rewrite (cons_middle _ before after), app_assoc, run_app, Hfirst. simpl.
    rewrite Hafter. simpl. rewrite app_nil_r, tasks_created_app.
    by rewrite warnings_create_nothing.
Qed.

(** C2.  Ticks that find the connector not ready never change the strategy
    and never create a task, however many they are; nothing but warnings is
    emitted, and while the strategy is not ready each tick emits exactly its
    warning. *)
Theorem ticks_while_connector_not_ready self calls :
  Forall (fun c => is_tick c = true) calls ->
  Forall (fun c => tick_ready c = false) calls ->
  (run self calls).1 = self /\
  Forall (fun c => (call self c).1 = self) calls /\
  tasks_created (run self calls).2 = 0%nat /\
  Forall (fun e => is_warning e = true) (run self calls).2 /\
  (_ready self = false -> (run self calls).2 = flat_map tick_warning calls).
Proof.
  intros Ht Hn.
  assert (Heach : Forall (fun c => (call self c).1 = self) calls).
  { apply Forall_forall. intros c Hc.
    rewrite Forall_forall in Ht, Hn. specialize (Ht c Hc). specialize (Hn c Hc).
    destruct c as [ex spawn timestamp|clock]; [|done]. simpl in *.
    destruct (_ready self) eqn:Hr.
    - by rewrite tick_when_ready.
    - by rewrite tick_connector_not_ready. }
  destruct (_ready self) eqn:Hr.
  - rewrite run_ticks_when_ready by done. simpl.
    repeat split; [done..|by constructor|done].
  - rewrite run_waiting by done. simpl.
    repeat split; [done|apply warnings_create_nothing|apply warnings_are_warnings].
Qed.

(** C4.  When the tick that sees the connector ready calls
    [safe_ensure_future] and the call raises, the tick leaves the strategy as
    it found it, not ready and without a handle; it shows the ready notice
    and logs the error; and the next tick that sees the connector ready
    launches as if nothing had been tried. *)
Theorem tick_launch_failure_rolls_back self ex e timestamp :
  _ready self = false -> _get_order_book_task self = None -> ready ex = true ->
  let after := tick self ex (SpawnRaised e) timestamp in
  after.1 = self /\
  _ready after.1 = false /\
  _get_order_book_task after.1 = None /\
  after.2 = [Notify (ready_notice ex); LogError start_error] /\
  forall ex' t timestamp',
    ready ex' = true ->
    tick after.1 ex' (Spawned t) timestamp'
      = (set_ready true (set_task (Some t) self),
         [Notify (ready_notice ex'); TaskCreated t]).
Proof.
  intros Hr Ht Hex after. subst after. rewrite tick_launch_raises by done. simpl.
  repeat split; [done..|]. intros ex' t timestamp' Hex'. by apply tick_launch.
Qed.

(** C8.  [stop] cancels the registered task and clears the handle, or does
    nothing when there is none; a second [stop] changes nothing and has no
    effect, so two calls leave the state of one.  [stop] has no way to raise:
    its result is always a state. *)
Theorem stop_idempotent self clock clock' :
  let once := stop self clock in
  let twice := stop once.1 clock' in
  twice.1 = once.1 /\
  twice.2 = [] /\
  _get_order_book_task once.1 = None /\
  _ready once.1 = _ready self /\
  match _get_order_book_task self with
  | Some t => once = (set_task None self, [TaskCancel t])
  | None => once = (self, [])
  end.
Proof.
  unfold stop. destruct (_get_order_book_task self) as [t|] eqn:E; simpl.
  - done.
  - by rewrite E.
Qed.

(** C10.  [stop] leaves [_ready] as it is: from a ready strategy, after
    [stop] and after any further calls the flag is still set, every tick
    returns at once, and no task is created any more. *)
Theorem stop_never_resets_ready self clock :
  _ready self = true ->
  _ready (stop self clock).1 = true /\
  forall calls,
    let later := run (stop self clock).1 calls in
    _ready later.1 = true /\
    tasks_created later.2 = 0%nat /\
    forall ex spawn timestamp, tick later.1 ex spawn timestamp = (later.1, []).
Proof.
  intros Hr. assert (Hs : _ready (stop self clock).1 = true) by by rewrite stop_ready.
  split; [done|]. intros calls later.
  destruct (run_when_ready (stop self clock).1 calls Hs) as [H1 H2].
  repeat split; [done..|]. intros ex spawn timestamp. by apply tick_when_ready.
Qed.

(** *** The claims about the refresh coroutine *)

(** C3.  For a pair that the connector does not list, [show_order_book] logs
    the error and raises ValueError, whatever would happen at its awaits:
    these are its only effects, so nothing is asked of the display surface. *)
Theorem show_order_book_invalid_market self ex sched :
  order_books ex !! _trading_pair self = None ->
  show_order_book fmt self ex sched
    = ([LogError (invalid_market self ex)],
       Raised (ValueError (invalid_market self ex))) /\
  count_events is_display_op (show_order_book fmt self ex sched).1 = 0%nat.
Proof. intros H. unfold show_order_book. by rewrite H. Qed.

(** C5.  Take any run of [show_order_book] that has reached a paced display
    and waits in it.  If the flag is found off when the coroutine is resumed,
    no further render follows (so at most one does): the coroutine emits the
    stop notice and returns, whatever the connector holds by then. *)
Theorem show_order_book_graceful_stop self ex sched evs text delay ex' later :
  show_order_book fmt self ex sched = (evs ++ [ClsDisplayDelay text delay], Suspended) ->
  show_order_book fmt self ex (sched ++ Resumed false ex' :: later)
    = (evs ++ [ClsDisplayDelay text delay; Notify stopped_notice], Returned) /\
  count_events is_render (show_order_book fmt self ex (sched ++ Resumed false ex' :: later)).1
    = count_events is_render (show_order_book fmt self ex sched).1.
Proof.
  intros H.
  assert (Hrun : show_order_book fmt self ex (sched ++ Resumed false ex' :: later)
            = (evs ++ [ClsDisplayDelay text delay; Notify stopped_notice], Returned)).
  { unfold show_order_book in *.
    destruct (order_books ex !! _trading_pair self); [|done].
    destruct sched as [|r sched].
    - inversion H as [H']. by destruct evs as [|? [|? ?]].
    - destruct r as [b ex1|]; [|done]. simpl.
      destruct (live_loop fmt self true ex1 sched) as [evs1 out1] eqn:E.
      assert (out1 = Suspended) as -> by (destruct out1; congruence).
      inversion H as [H']. rewrite (live_loop_flag_cleared _ _ _ _ _ ex' later E).
      rewrite (cons_middle (ClsDisplayDelay text delay) evs), app_assoc.
      by rewrite !app_comm_cons, H'. }
  split; [done|]. rewrite Hrun, H. simpl.
  rewrite (cons_middle (ClsDisplayDelay text delay) evs), app_assoc.
  rewrite (count_events_app _ _ [Notify stopped_notice]). simpl.
  unfold count_events at 2. simpl. lia.
Qed.

(** C9.  For every order book that the connector holds for the pair, the
    text of [get_order_book] is the header line, made of the connector's
    name and the pair as they are and closed by a line feed, followed by the
    table. *)
Theorem get_order_book_header self ex order_book :
  order_books ex !! _trading_pair self = Some order_book ->
  get_order_book fmt self ex
    = Ok (("  market: " +:+ name ex +:+ " " +:+ _trading_pair self +:+ PyStr.nl)
            +:+ table_text fmt (_lines self) order_book).
Proof. intros H. unfold get_order_book. by rewrite H. Qed.

End Properties.

(** ** The status report *)

Lemma format_status_not_ready {D : Type} (str_balance : D -> string)
    (self : GetOrderBookStrategy (D := D)) :
  _ready self = false ->
  format_status str_balance self = Ok "Exchange connector(s) are not ready."%string.
Proof. intros H. unfold format_status. by rewrite H. Qed.

(** No attribute is called [_market_infos]: [__init__] assigns
    [_market_info]. *)
Lemma format_status_ready {D : Type} (str_balance : D -> string)
    (self : GetOrderBookStrategy (D := D)) :
  _ready self = true ->
  format_status str_balance self = Raise (AttributeError "_market_infos").
Proof. intros H. unfold format_status. by rewrite H. Qed.

(** C7.  On the strategy that a tick has just made ready, with one tracked
    market, [format_status] returns no balance line: it raises
    AttributeError on [self._market_infos]. *)
Theorem format_status_raises_once_ready :
  _ready Sample.launched = true /\
  length (_market_info Sample.launched) = 1%nat /\
  format_status pretty Sample.launched = Raise (AttributeError "_market_infos").
Proof. by repeat split. Qed.

(** ** The rendered table *)

(** C6.  With [lines = 2] and the book of three levels a side, the joined
    frame has the two rows (100, 1, 101, 1) and (99, 2, 102, 2), and the text
    is the header, the line of column labels and these two rows. *)
Theorem get_order_book_two_rows (self : GetOrderBookStrategy (D := Z))
    (ex : Exchange (D := Z)) :
  _lines self = 2 ->
  order_books ex !! _trading_pair self = Some Sample.book ->
  Pandas.rows (joined_df (_lines self) Sample.book)
    = [ [Some 100; Some 1; Some 101; Some 1];
        [Some 99; Some 2; Some 102; Some 2] ] /\
  get_order_book pretty self ex
    = Ok (header ex self +:+
          PyStr.join PyStr.nl
            [ "     bid_price  bid_volume  ask_price  ask_volume"%string;
              "           100           1        101           1"%string;
              "            99           2        102           2"%string ]).
Proof.
  intros Hl Hb. unfold get_order_book. rewrite Hb, Hl. split; [reflexivity|].
  do 2 f_equal.
Qed.

(** ** Concrete runs *)

(** C1, as stated, fails: one tick sees the connector ready, the call of
    [safe_ensure_future] raises, and no task exists afterwards. *)
Lemma tick_launch_not_exactly_once :
  Forall (fun c => is_tick c = true) Sample.failed_launch /\
  ready_ticks Sample.failed_launch = 1%nat /\
  run Sample.fresh Sample.failed_launch
    = (Sample.fresh,
       [Notify "BINANCE Connector is ready!"; LogError "Error starting live order book. "]) /\
  _ready (run Sample.fresh Sample.failed_launch).1 = false /\
  _get_order_book_task (run Sample.fresh Sample.failed_launch).1 = None /\
  tasks_created (run Sample.fresh Sample.failed_launch).2 <> 1%nat.
Proof.
  repeat split; [by repeat constructor|]. by vm_compute.
Qed.

Lemma tick_launches_exactly_once_witness :
  (1 <= ready_ticks Sample.three_ticks)%nat /\
  (run Sample.fresh Sample.three_ticks).1
    = set_ready true (set_task (Some 8%nat) Sample.fresh) /\
  tasks_created (run Sample.fresh Sample.three_ticks).2 = 1%nat.
Proof.
  assert (Hn : (1 <= ready_ticks Sample.three_ticks)%nat) by (vm_compute; lia).
  split; [exact Hn|].
  destruct (proj2 (tick_launches_exactly_once Sample.fresh Sample.three_ticks
                     eq_refl eq_refl))
    as (before & ex & t & timestamp & after & _ & _ & _ & _ & _ & _ & Hone).
  - repeat constructor.
  - exact Hn.
  - repeat constructor.
  - split; [reflexivity | exact Hone].
Defined.

Lemma ticks_while_connector_not_ready_witness :
  (run Sample.fresh Sample.waiting_ticks).1 = Sample.fresh /\
  tasks_created (run Sample.fresh Sample.waiting_ticks).2 = 0%nat.
Proof.
  destruct (ticks_while_connector_not_ready Sample.fresh Sample.waiting_ticks)
    as (H1 & _ & H2 & _).
  - repeat constructor.
  - repeat constructor.
  - split; [exact H1 | exact H2].
Defined.

Lemma tick_launch_failure_rolls_back_witness :
  (tick Sample.fresh (Sample.binance true) (SpawnRaised Sample.no_loop) 1).1 = Sample.fresh.
Proof.
  apply (tick_launch_failure_rolls_back
           Sample.fresh (Sample.binance true) Sample.no_loop 1);
    reflexivity.
Defined.

Lemma stop_never_resets_ready_witness :
  _ready (stop Sample.launched Sample.clock).1 = true.
Proof.
  apply (stop_never_resets_ready Sample.launched Sample.clock). reflexivity.
Defined.

Lemma show_order_book_invalid_market_witness :
  show_order_book pretty Sample.fresh Sample.kucoin [Resumed true Sample.kucoin]
    = ([LogError "Invalid market BTC-USDT on kucoin connector."],
       Raised (ValueError "Invalid market BTC-USDT on kucoin connector.")).
Proof.
  apply (show_order_book_invalid_market pretty Sample.fresh Sample.kucoin).
  reflexivity.
Defined.

Lemma show_order_book_graceful_stop_witness :
  show_order_book pretty Sample.fresh (Sample.binance true)
    ([Resumed false (Sample.binance true); Resumed true (Sample.binance true)]
       ++ [Resumed false Sample.kucoin])
    = ([StopLiveUpdate; SetLiveUpdates true; ClsDisplayDelay Sample.shown (1 # 2)]
         ++ [ClsDisplayDelay Sample.shown (1 # 2); Notify stopped_notice],
       Returned).
Proof.
  apply (show_order_book_graceful_stop pretty Sample.fresh (Sample.binance true)
           [Resumed false (Sample.binance true); Resumed true (Sample.binance true)]
           [StopLiveUpdate; SetLiveUpdates true; ClsDisplayDelay Sample.shown (1 # 2)]
           Sample.shown (1 # 2) Sample.kucoin []).
  reflexivity.
Defined.

Lemma get_order_book_header_witness :
  get_order_book pretty Sample.fresh (Sample.binance true)
    = Ok (("  market: " +:+ "binance" +:+ " " +:+ "BTC-USDT" +:+ PyStr.nl)
            +:+ table_text pretty 2 Sample.book).
Proof.
  apply (get_order_book_header pretty Sample.fresh (Sample.binance true) Sample.book).
  reflexivity.
Defined.

Lemma get_order_book_two_rows_witness :
  Pandas.rows (joined_df 2 Sample.book)
    = [ [Some 100; Some 1; Some 101; Some 1];
        [Some 99; Some 2; Some 102; Some 2] ].
Proof.
  apply (get_order_book_two_rows Sample.fresh (Sample.binance true)); reflexivity.
Defined.

(** ** More on the readiness gate and the stop handler *)

Section GateProperties.
Context {D : Type}.
Implicit Types (self : GetOrderBookStrategy (D := D)) (ex : Exchange (D := D)).
Implicit Types (calls : list (Call (D := D))) (evs : list Event).

Lemma tasks_cancelled_app evs evs' :
  tasks_cancelled (evs ++ evs') = (tasks_cancelled evs + tasks_cancelled evs')%nat.
Proof. apply count_events_app. Qed.

(** A call keeps the rule that a strategy that is not ready holds no task. *)
Lemma call_keeps_handle_rule self c :
  (_ready self = false -> _get_order_book_task self = None) ->
  _ready (call self c).1 = false -> _get_order_book_task (call self c).1 = None.
Proof.
  intros Hinv. destruct c as [ex spawn timestamp|clock]; simpl.
  - unfold tick. destruct (_ready self) eqn:Hr; simpl; [congruence|].
    rewrite (Hinv eq_refl).
    destruct (ready ex); simpl; [|by intros; apply Hinv].
    destruct spawn; simpl; [done|]. intros _. by apply Hinv.
  - intros _. apply stop_no_task.
Qed.

(** X1.  The handle is set only while the strategy is ready: whatever the
    host calls and whatever the launches do, a state with a task handle has
    [_ready] set. *)
Theorem handle_only_when_ready self calls t :
  (_ready self = false -> _get_order_book_task self = None) ->
  _get_order_book_task (run self calls).1 = Some t ->
  _ready (run self calls).1 = true.
Proof.
  revert self. induction calls as [|c calls IH]; intros self Hinv Ht.
  - simpl in *. destruct (_ready self); [done|]. rewrite Hinv in Ht; done.
  - rewrite run_cons in *. simpl in *. apply IH; [|done].
    by apply call_keeps_handle_rule.
Qed.

(** From a strategy that is not ready and holds no task, either no task was
    created and the state is still such, or exactly one was and the strategy
    is ready. *)
Lemma run_ready_or_waiting self calls :
  _ready self = false -> _get_order_book_task self = None ->
  (_ready (run self calls).1 = false /\
   _get_order_book_task (run self calls).1 = None /\
   tasks_created (run self calls).2 = 0%nat) \/
  (_ready (run self calls).1 = true /\
   tasks_created (run self calls).2 = 1%nat).
Proof.
  revert self. induction calls as [|c calls IH]; intros self Hr Ht.
  - left. by repeat split.
  - rewrite run_cons. simpl. rewrite tasks_created_app.
    destruct c as [ex spawn timestamp|clock]; simpl.
    + destruct (ready ex) eqn:Hex.
      * destruct spawn as [t|e].
        -- rewrite tick_launch by done. simpl. right.
           destruct (run_when_ready (set_ready true (set_task (Some t) self)) calls)
             as [H1 H2]; [done|].
           split; [done|]. rewrite H2. by vm_compute.
        -- rewrite tick_launch_raises by done. simpl. by apply IH.
      * rewrite tick_connector_not_ready by done. simpl. by apply IH.
    + unfold stop. rewrite Ht. simpl. by apply IH.
Qed.

(** X2.  From the state that [__init__] leaves, the strategy is ready exactly
    when a task has been created, and as long as none has, [format_status]
    answers that the connector is not ready. *)
Theorem ready_iff_task_created (str_balance : D -> string) self calls :
  _ready self = false -> _get_order_book_task self = None ->
  (_ready (run self calls).1 = true <-> tasks_created (run self calls).2 = 1%nat) /\
  (tasks_created (run self calls).2 = 0%nat ->
   format_status str_balance (run self calls).1
     = Ok "Exchange connector(s) are not ready."%string).
Proof.
  intros Hr Ht.
  destruct (run_ready_or_waiting self calls Hr Ht) as [(H1 & H2 & H3)|(H1 & H2)].
  - rewrite H1, H3. repeat split; [done..|]. intros _.
    unfold format_status. by rewrite H1.
  - rewrite H1, H2. by repeat split.
Qed.

(** What one call can do: leave the state alone and neither create nor
    cancel a task, or launch, or cancel the task it holds. *)
Lemma call_cases self c :
  (exists evs, call self c = (self, evs) /\
     Forall (fun e => is_task_created e = false /\ is_task_cancel e = false) evs) \/
  (exists ex t, _ready self = false /\ _get_order_book_task self = None /\
     call self c = (set_ready true (set_task (Some t) self),
                    [Notify (ready_notice ex); TaskCreated t])) \/
  (exists t, _get_order_book_task self = Some t /\
     call self c = (set_task None self, [TaskCancel t])).
Proof.
  destruct c as [ex spawn timestamp|clock]; simpl.
  - destruct (_ready self) eqn:Hr.
    { left. exists []. by rewrite tick_when_ready. }
    destruct (ready ex) eqn:Hex.
    2:{ left. eexists. rewrite tick_connector_not_ready by done.
        split; [done|]. by repeat constructor. }
    destruct (_get_order_book_task self) as [t0|] eqn:Ht.
    { left. eexists. unfold tick. rewrite Hr, Hex, Ht. simpl.
      split; [done|]. by repeat constructor. }
    destruct spawn as [t|e].
    + right. left. exists ex, t. by rewrite tick_launch.
    + left. eexists. rewrite tick_launch_raises by done.
      split; [done|]. by repeat constructor.
  - unfold stop. destruct (_get_order_book_task self) as [t0|] eqn:Ht.
    + right. right. by exists t0.
    + left. exists []. by split.
Qed.

(** A cancelled task is the one the strategy held or one it created. *)
Lemma run_cancels_own_task self calls t :
  TaskCancel t ∈ (run self calls).2 ->
  _get_order_book_task self = Some t \/ TaskCreated t ∈ (run self calls).2.
Proof.
  revert self. induction calls as [|c calls IH]; intros self Hin.
  - simpl in Hin. by apply not_elem_of_nil in Hin.
  - rewrite run_cons in *. simpl in *.
    destruct (call_cases self c)
      as [(evs & Hc & Hnone)|[(ex & t' & Hr & Ht & Hc)|(t' & Ht & Hc)]];
      rewrite Hc in *; simpl in *.
    + apply elem_of_app in Hin as [Hin|Hin].
      * rewrite Forall_forall in Hnone. by destruct (Hnone _ Hin).
      * destruct (IH _ Hin) as [Hs|Hin']; [by left|].
        right. apply elem_of_app. by right.
    + apply elem_of_cons in Hin as [Hin|Hin]; [done|].
      apply elem_of_cons in Hin as [Hin|Hin]; [done|].
      right. destruct (IH _ Hin) as [Hs|Hin'].
      * simpl in Hs. inversion Hs; subst.
        apply elem_of_cons. right. apply elem_of_cons. by left.
      * apply elem_of_cons. right. apply elem_of_cons. by right.
    + apply elem_of_cons in Hin as [Hin|Hin].
      * left. by inversion Hin; subst.
      * destruct (IH _ Hin) as [Hs|Hin']; [done|].
        right. apply elem_of_cons. by right.
Qed.

Lemma count_events_none p evs :
  Forall (fun e => p e = false) evs -> count_events p evs = 0%nat.
Proof.
  induction 1 as [|e evs He _ IH]; [done|].
  unfold count_events in *. rewrite filter_cons_False by congruence. done.
Qed.

(** The cancellations of a run are at most its creations, plus one if the
    run started with a task. *)
Lemma run_cancels_bounded self calls :
  (tasks_cancelled (run self calls).2
   <= match _get_order_book_task self with Some _ => 1 | None => 0 end
      + tasks_created (run self calls).2)%nat.
Proof.
  revert self. induction calls as [|c calls IH]; intros self.
  - simpl. unfold tasks_cancelled, count_events. simpl. lia.
  - rewrite run_cons. simpl. rewrite tasks_cancelled_app, tasks_created_app.
    specialize (IH (call self c).1).
    destruct (call_cases self c)
      as [(evs & Hc & Hnone)|[(ex & t' & Hr & Ht & Hc)|(t' & Ht & Hc)]];
      rewrite Hc in *; simpl in *.
    + assert (H1 : tasks_cancelled evs = 0%nat).
      { apply count_events_none. eapply Forall_impl; [exact Hnone|]. by intros e [? ?]. }
      assert (H2 : tasks_created evs = 0%nat).
      { apply count_events_none. eapply Forall_impl; [exact Hnone|]. by intros e [? ?]. }
      lia.
    + rewrite Ht.
      replace (tasks_cancelled [Notify (ready_notice ex); TaskCreated t']) with 0%nat
        by reflexivity.
      replace (tasks_created [Notify (ready_notice ex); TaskCreated t']) with 1%nat
        by reflexivity.
      lia.
    + rewrite Ht.
      replace (tasks_cancelled [TaskCancel t']) with 1%nat by reflexivity.
      replace (tasks_created [TaskCancel t']) with 0%nat by reflexivity.
      lia.
Qed.

(** X3.  From the state that [__init__] leaves, [stop] only ever cancels a
    task that the strategy created itself, and the run cancels at most as
    many tasks as it created, so at most one. *)
Theorem stop_cancels_created_task self calls :
  _ready self = false -> _get_order_book_task self = None ->
  (forall t, TaskCancel t ∈ (run self calls).2 -> TaskCreated t ∈ (run self calls).2) /\
  (tasks_cancelled (run self calls).2 <= tasks_created (run self calls).2 <= 1)%nat.
Proof.
  intros Hr Ht. split.
  - intros t Hin. destruct (run_cancels_own_task self calls t Hin) as [H|H]; [|done].
    by rewrite Ht in H.
  - split; [|by apply run_creates_at_most_one].
    pose proof (run_cancels_bounded self calls) as H. by rewrite Ht in H.
Qed.

(** X4.  No call changes the configuration: the pair, the number of lines
    and the market infos stay those given to [__init__]. *)
Theorem run_keeps_configuration self calls :
  _trading_pair (run self calls).1 = _trading_pair self /\
  _lines (run self calls).1 = _lines self /\
  _market_info (run self calls).1 = _market_info self.
Proof.
  revert self. induction calls as [|c calls IH]; intros self; [done|].
  rewrite run_cons. simpl. destruct (IH (call self c).1) as (-> & -> & ->).
  destruct c as [ex spawn timestamp|clock]; simpl.
  - unfold tick. destruct (_ready self); [done|].
    destruct (negb false && negb (ready ex)); [done|].
    destruct (_get_order_book_task self); [done|]. by destruct spawn.
  - unfold stop. by destruct (_get_order_book_task self).
Qed.

(** X5.  A launch that keeps raising is tried again on every tick that sees
    the connector ready: each such tick shows the ready notice and logs the
    error, and the strategy stays as it was. *)
Theorem failing_launch_is_retried self calls :
  _ready self = false -> _get_order_book_task self = None ->
  Forall (fun c => tick_ready c = true) calls ->
  Forall (fun c => spawn_raises c = true) calls ->
  run self calls = (self, flat_map launch_failure calls).
Proof.
  intros Hr Ht Hready Hraise. induction calls as [|c calls IH]; [done|].
  apply Forall_cons in Hready as [Hc Hready]. apply Forall_cons in Hraise as [Hs Hraise].
  rewrite run_cons. destruct c as [ex spawn timestamp|clock]; [|done].
  destruct spawn as [t|e]; [done|]. simpl in Hc. simpl.
  rewrite tick_launch_raises by done. simpl. by rewrite IH.
Qed.

(** X6.  Stops and ticks that come before the connector is ready leave a
    strategy that was never launched as it is, so the first tick that then
    sees the connector ready launches the task. *)
Theorem stop_before_launch_is_harmless self calls ex t timestamp :
  _ready self = false -> _get_order_book_task self = None ->
  Forall (fun c => tick_ready c = false) calls ->
  ready ex = true ->
  (run self calls).1 = self /\
  tasks_created (run self calls).2 = 0%nat /\
  run self (calls ++ [CallTick ex (Spawned t) timestamp])
    = (set_ready true (set_task (Some t) self),
       (run self calls).2 ++ [Notify (ready_notice ex); TaskCreated t]).
Proof.
  intros Hr Ht Hwait Hex.
  assert (Hrun : (run self calls).1 = self /\ tasks_created (run self calls).2 = 0%nat).
  { induction calls as [|c calls IH]; [done|].
    apply Forall_cons in Hwait as [Hc Hwait]. rewrite run_cons. simpl.
    rewrite tasks_created_app.
    destruct c as [ex' spawn ts|clock]; simpl in *.
    - rewrite tick_connector_not_ready by done. simpl. by apply IH.
    - unfold stop. rewrite Ht. simpl. by apply IH. }
  destruct Hrun as [H1 H2]. repeat split; [done..|].
  rewrite run_app, H1. simpl. by rewrite tick_launch.
Qed.

End GateProperties.

(** ** More on the refresh coroutine *)

Section CoroutineProperties.
Context {D : Type}.
Variable fmt : D -> string.
Implicit Types (self : GetOrderBookStrategy (D := D)) (ex : Exchange (D := D)).
Implicit Types (sched : list (Resume (D := D))) (evs : list Event).

Lemma get_order_book_listed self ex :
  is_Some (order_books ex !! _trading_pair self) ->
  exists text, get_order_book fmt self ex = Ok text.
Proof. intros [ob H]. unfold get_order_book. rewrite H. by eexists. Qed.

Lemma get_order_book_unlisted self ex :
  order_books ex !! _trading_pair self = None ->
  get_order_book fmt self ex = Raise (KeyError (_trading_pair self)).
Proof. intros H. unfold get_order_book. by rewrite H. Qed.

(** One step of the loop, whatever the schedule is. *)
Lemma live_loop_unfold self live_updates ex sched :
  live_loop fmt self live_updates ex sched =
    if live_updates then
      match get_order_book fmt self ex with
      | Raise e => ([], Raised e)
      | Ok text =>
          match sched with
          | [] => ([paced text], Suspended)
          | Cancel :: _ => ([paced text], Cancelled)
          | Resumed live_updates' ex' :: sched' =>
              (paced text :: (live_loop fmt self live_updates' ex' sched').1,
               (live_loop fmt self live_updates' ex' sched').2)
          end
      end
    else ([], Returned).
Proof.
  destruct sched as [|[l' ex'|] sched']; simpl; try done.
  destruct live_updates; [|done].
  destruct (get_order_book fmt self ex); [|done].
  by destruct (live_loop fmt self l' ex' sched').
Qed.

(** How a waiting loop goes on: with what it finds at the next resumption,
    as if entered there. *)
Lemma live_loop_resume self sched :
  forall live_updates ex evs r later,
    live_loop fmt self live_updates ex sched = (evs, Suspended) ->
    live_loop fmt self live_updates ex (sched ++ r :: later) =
      match r with
      | Cancel => (evs, Cancelled)
      | Resumed live_updates' ex' =>
          (evs ++ (live_loop fmt self live_updates' ex' later).1,
           (live_loop fmt self live_updates' ex' later).2)
      end.
Proof.
  induction sched as [|r0 sched IH]; intros live_updates ex evs r later H.
  - rewrite live_loop_unfold in H. cbn [app]. rewrite (live_loop_unfold _ _ _ (r :: later)).
    destruct live_updates; [|done].
    destruct (get_order_book fmt self ex) as [text|e]; [|done].
    inversion H; subst. by destruct r.
  - rewrite live_loop_unfold in H. cbn [app].
    rewrite (live_loop_unfold _ _ _ (r0 :: _)).
    destruct live_updates; [|done].
    destruct (get_order_book fmt self ex) as [text|e]; [|done].
    destruct r0 as [l0 ex0|]; [|done].
    destruct (live_loop fmt self l0 ex0 sched) as [evs0 out0] eqn:E.
    simpl in H. inversion H; subst.
    rewrite (IH _ _ _ r later E). by destruct r.
Qed.

(** The loop emits paced displays and nothing else. *)
Lemma live_loop_renders self sched :
  forall live_updates ex,
    Forall (fun e => is_render e = true) (live_loop fmt self live_updates ex sched).1.
Proof.
  induction sched as [|r0 sched IH]; intros live_updates ex;
    rewrite live_loop_unfold; destruct live_updates; try by constructor.
  - destruct (get_order_book fmt self ex); by repeat constructor.
  - destruct (get_order_book fmt self ex); [|by constructor].
    destruct r0 as [l0 ex0|]; [|by repeat constructor].
    simpl. constructor; [done|]. apply IH.
Qed.

(** Entered with the flag on, the loop returns only after a render. *)
Lemma live_loop_returned_rendered self ex sched :
  (live_loop fmt self true ex sched).2 = Returned ->
  (live_loop fmt self true ex sched).1 <> [].
Proof.
  rewrite live_loop_unfold.
  destruct (get_order_book fmt self ex); [|done].
  by destruct sched as [|[l0 ex0|] sched].
Qed.

(** [show_order_book] once the pair is known to be listed. *)
Lemma show_order_book_listed self ex sched :
  is_Some (order_books ex !! _trading_pair self) ->
  show_order_book fmt self ex sched =
    match sched with
    | [] => ([StopLiveUpdate], Suspended)
    | Cancel :: _ => ([StopLiveUpdate], Cancelled)
    | Resumed _ ex' :: sched' =>
        let evs := StopLiveUpdate :: SetLiveUpdates true
                     :: (live_loop fmt self true ex' sched').1 in
        match (live_loop fmt self true ex' sched').2 with
        | Returned => (evs ++ [Notify stopped_notice], Returned)
        | out => (evs, out)
        end
    end.
Proof.
  intros [ob H]. unfold show_order_book. rewrite H.
  destruct sched as [|[b ex'|] sched']; try done.
  destruct (live_loop fmt self true ex' sched') as [evs out]. by destruct out.
Qed.

Lemma show_order_book_unlisted self ex sched :
  order_books ex !! _trading_pair self = None ->
  show_order_book fmt self ex sched
    = ([LogError (invalid_market self ex)],
       Raised (ValueError (invalid_market self ex))).
Proof. intros H. unfold show_order_book. by rewrite H. Qed.

(** X7.  The effects of [show_order_book] come in one order only.  For an
    unlisted pair there is the error log and ValueError.  Otherwise the
    coroutine first asks to stop the other live view, then turns the flag on,
    then does paced displays and nothing else; it never turns the flag off;
    and the stop notice comes exactly when the coroutine returns, as the last
    effect and after at least one display. *)
Theorem show_order_book_trace_shape self ex sched :
  (order_books ex !! _trading_pair self = None /\
   show_order_book fmt self ex sched
     = ([LogError (invalid_market self ex)],
        Raised (ValueError (invalid_market self ex)))) \/
  (is_Some (order_books ex !! _trading_pair self) /\
   (show_order_book fmt self ex sched).1 = [StopLiveUpdate] /\
   ((show_order_book fmt self ex sched).2 = Suspended \/
    (show_order_book fmt self ex sched).2 = Cancelled)) \/
  (is_Some (order_books ex !! _trading_pair self) /\
   exists renders,
     Forall (fun e => is_render e = true) renders /\
     (((show_order_book fmt self ex sched).1
         = StopLiveUpdate :: SetLiveUpdates true :: renders ++ [Notify stopped_notice] /\
       (show_order_book fmt self ex sched).2 = Returned /\ renders <> []) \/
      ((show_order_book fmt self ex sched).1
         = StopLiveUpdate :: SetLiveUpdates true :: renders /\
       (show_order_book fmt self ex sched).2 <> Returned))).
Proof.
  destruct (order_books ex !! _trading_pair self) as [ob|] eqn:Hb.
  2:{ left. split; [done|]. by apply show_order_book_unlisted. }
  right. assert (Hl : is_Some (order_books ex !! _trading_pair self)) by by rewrite Hb.
  rewrite Hb in *. rewrite (show_order_book_listed self ex sched) by by rewrite Hb.
  destruct sched as [|[b ex'|] sched'].
  - left. repeat split; [done..|]. by left.
  - right. split; [done|].
    exists (live_loop fmt self true ex' sched').1.
    split; [apply live_loop_renders|].
    pose proof (live_loop_returned_rendered self ex' sched') as Hne.
    destruct (live_loop fmt self true ex' sched') as [evs out]. simpl in *.
    destruct out; simpl;
      [left; split; [reflexivity|]; split; [reflexivity|]; by apply Hne
      | right; split; [reflexivity|discriminate] ..].
  - left. repeat split; [done..|]. by right.
Qed.

(** X8.  A coroutine that waits at an await and is cancelled there stops
    with the effects it had so far: no further display, no stop notice, and
    the flag stays as it is. *)
Theorem show_order_book_cancelled self ex sched evs later :
  show_order_book fmt self ex sched = (evs, Suspended) ->
  show_order_book fmt self ex (sched ++ Cancel :: later) = (evs, Cancelled).
Proof.
  intros H. destruct (order_books ex !! _trading_pair self) as [ob|] eqn:Hb.
  2:{ by rewrite show_order_book_unlisted in H. }
  rewrite show_order_book_listed in H by by rewrite Hb.
  rewrite show_order_book_listed by by rewrite Hb.
  destruct sched as [|[b ex'|] sched']; cbn [app] in *; [congruence| |congruence].
  destruct (live_loop fmt self true ex' sched') as [evs1 out1] eqn:E. simpl in *.
  assert (out1 = Suspended) as -> by (destruct out1; congruence).
  rewrite (live_loop_resume _ _ _ _ _ Cancel later E). simpl. congruence.
Qed.

(** X9.  The pair is checked once, before the loop.  If the connector drops
    it while the coroutine waits in a paced display and the flag is still on,
    the next render raises KeyError out of the coroutine: nothing more is
    displayed and no stop notice is sent. *)
Theorem show_order_book_pair_dropped self ex sched evs text delay ex' later :
  show_order_book fmt self ex sched = (evs ++ [ClsDisplayDelay text delay], Suspended) ->
  order_books ex' !! _trading_pair self = None ->
  show_order_book fmt self ex (sched ++ Resumed true ex' :: later)
    = (evs ++ [ClsDisplayDelay text delay], Raised (KeyError (_trading_pair self))).
Proof.
  intros H Hdrop. destruct (order_books ex !! _trading_pair self) as [ob|] eqn:Hb.
  2:{ by rewrite show_order_book_unlisted in H. }
  rewrite show_order_book_listed in H by by rewrite Hb.
  rewrite show_order_book_listed by by rewrite Hb.
  destruct sched as [|[b ex1|] sched']; cbn [app] in *.
  - inversion H as [H']. by destruct evs as [|? [|? ?]].
  - destruct (live_loop fmt self true ex1 sched') as [evs1 out1] eqn:E. simpl in *.
    assert (out1 = Suspended) as -> by (destruct out1; congruence).
    rewrite (live_loop_resume _ _ _ _ _ (Resumed true ex') later E). simpl.
    rewrite (live_loop_unfold _ _ _ later), get_order_book_unlisted by done. simpl.
    rewrite app_nil_r. congruence.
  - done.
Qed.

Lemma live_loop_all_on self exs :
  forall ex0 texts,
    Forall2 (fun ex' text => get_order_book fmt self ex' = Ok text) (ex0 :: exs) texts ->
    live_loop fmt self true ex0 (Resumed true <$> exs) = (paced <$> texts, Suspended).
Proof.
  induction exs as [|ex1 exs IH]; intros ex0 texts H.
  - apply Forall2_cons_inv_l in H as (text & texts' & H0 & Hrest & ->).
    apply Forall2_nil_inv_l in Hrest as ->.
    rewrite live_loop_unfold, H0. done.
  - apply Forall2_cons_inv_l in H as (text & texts' & H0 & Hrest & ->).
    rewrite fmap_cons, live_loop_unfold, H0. by rewrite (IH ex1 texts' Hrest).
Qed.

(** X10.  Every render shows the order book as the connector has it at that
    moment: while the flag stays on, the k-th paced display carries the text
    of [get_order_book] for the connector found at the k-th resumption, with
    the escape hint and the delay 1/2.  The flag found after
    [stop_live_update()] does not matter, for the coroutine sets it. *)
Theorem show_order_book_renders_fresh self ex b ex0 exs texts :
  is_Some (order_books ex !! _trading_pair self) ->
  Forall2 (fun ex' text => get_order_book fmt self ex' = Ok text) (ex0 :: exs) texts ->
  show_order_book fmt self ex (Resumed b ex0 :: (Resumed true <$> exs))
    = (StopLiveUpdate :: SetLiveUpdates true :: (paced <$> texts), Suspended).
Proof.
  intros Hl H. rewrite show_order_book_listed by done.
  by rewrite (live_loop_all_on self exs ex0 texts H).
Qed.

Lemma live_loop_listed_no_raise self sched :
  forall live_updates ex e,
    is_Some (order_books ex !! _trading_pair self) ->
    Forall (fun r => lists_pair self r = true) sched ->
    (live_loop fmt self live_updates ex sched).2 <> Raised e.
Proof.
  induction sched as [|r sched IH]; intros live_updates ex e Hl Hs;
    rewrite live_loop_unfold; destruct live_updates; try done;
    destruct (get_order_book_listed self ex Hl) as [text ->]; [done|].
  apply Forall_cons in Hs as [Hr Hs].
  destruct r as [l' ex'|]; [|done]. simpl. apply IH; [|done].
  simpl in Hr. by apply bool_decide_eq_true in Hr.
Qed.

(** X11.  As long as every state of the connector that the coroutine meets
    lists the pair, [show_order_book] raises nothing: it waits, returns or is
    cancelled. *)
Theorem show_order_book_no_raise_while_listed self ex sched e :
  is_Some (order_books ex !! _trading_pair self) ->
  Forall (fun r => lists_pair self r = true) sched ->
  (show_order_book fmt self ex sched).2 <> Raised e.
Proof.
  intros Hl Hs. rewrite show_order_book_listed by done.
  destruct sched as [|[b ex'|] sched']; [done| |done].
  apply Forall_cons in Hs as [Hr Hs]. simpl in Hr. apply bool_decide_eq_true in Hr.
  pose proof (live_loop_listed_no_raise self sched' true ex' e Hr Hs) as Hno.
  destruct (live_loop fmt self true ex' sched') as [evs out]. simpl in *.
  by destruct out.
Qed.



End CoroutineProperties.

(** ** More on the table of [get_order_book] *)

Section TableProperties.
Context {D : Type}.
Implicit Types (order_book : OrderBook (D := D)) (side : list (Level (D := D))).

(** The rows that [head(lines)] keeps of a side of [n] levels. *)
Lemma head_rows lines side :
  Pandas.rows (Pandas.head lines (price_amount side))
    = take (if 0 <=? lines then Z.to_nat lines
            else (length side - Z.to_nat (- lines))%nat)
           (side_cells <$> (Some <$> side)).
Proof.
  unfold Pandas.head, price_amount. simpl. rewrite length_fmap.
  f_equal. rewrite <- list_fmap_compose. done.
Qed.

Lemma joined_df_rows lines order_book :
  let bids := Pandas.rows (Pandas.head lines (price_amount (snapshot order_book).1)) in
  let asks := Pandas.rows (Pandas.head lines (price_amount (snapshot order_book).2)) in
  Pandas.rows (joined_df lines order_book)
    = (fun i => default [None; None] (bids !! i) ++ default [None; None] (asks !! i))
        <$> seq 0 (Nat.max (length bids) (length asks)).
Proof. reflexivity. Qed.

(** X13.  The table has as many rows as the longer of the two sides after
    [head(lines)]: for [lines >= 0] each side gives its first [lines] levels,
    so there are never more than [lines] rows and none for [lines = 0]; for a
    negative [lines] each side gives all its levels but the last [-lines]. *)
Theorem joined_df_row_count lines order_book :
  let nb := length (snapshot order_book).1 in
  let na := length (snapshot order_book).2 in
  let n := length (Pandas.rows (joined_df lines order_book)) in
  (0 <= lines ->
   n = Nat.max (Nat.min (Z.to_nat lines) nb) (Nat.min (Z.to_nat lines) na) /\
   Z.of_nat n <= lines) /\
  (lines < 0 ->
   n = Nat.max (nb - Z.to_nat (- lines)) (na - Z.to_nat (- lines))).
Proof.
  intros nb na n. subst n. rewrite joined_df_rows. cbv zeta.
  rewrite length_fmap, length_seq, !head_rows, !length_take, !length_fmap.
  fold nb na. split; intros H.
  - assert (Hpos : (0 <=? lines) = true) by by apply Z.leb_le.
    rewrite Hpos. split; lia.
  - assert (Hneg : (0 <=? lines) = false) by by apply Z.leb_gt.
    rewrite Hneg. lia.
Qed.

(** X14.  Whatever the book and whatever [lines], the table has the four
    columns bid_price, bid_volume, ask_price, ask_volume in this order, and
    every row has four cells. *)
Theorem joined_df_four_columns lines order_book :
  Pandas.columns (joined_df lines order_book)
    = ["bid_price"; "bid_volume"; "ask_price"; "ask_volume"]%string /\
  Forall (fun r => length r = 4%nat) (Pandas.rows (joined_df lines order_book)).
Proof.
  split; [reflexivity|].
  rewrite joined_df_rows. cbv zeta. apply Forall_fmap, Forall_forall. intros i _.
  unfold compose. cbv beta. rewrite length_app, !head_rows.
  assert (Hside : forall k side i,
            length (default [None; None]
                      (take k (side_cells <$> (Some <$> side)) !! i)) = 2%nat).
  { intros k side j.
    destruct (take k (side_cells <$> (Some <$> side)) !! j) as [r|] eqn:E; [|done].
    apply lookup_take_Some in E as [E _].
    rewrite !list_lookup_fmap in E. by destruct (side !! j); inversion E. }
  by rewrite !Hside.
Qed.

(** The cells that a side gives to row [i] when [head] keeps that row. *)
Lemma head_row_cells lines side i :
  0 <= lines -> (i < Z.to_nat lines)%nat ->
  default [None; None] (Pandas.rows (Pandas.head lines (price_amount side)) !! i)
    = side_cells (side !! i).
Proof.
  intros Hpos Hi. rewrite head_rows.
  assert (H0 : (0 <=? lines) = true) by by apply Z.leb_le.
  rewrite H0, lookup_take_lt, !list_lookup_fmap by done.
  by destruct (side !! i).
Qed.

(** X15.  For [lines >= 0], row [i] of the table, if [i < lines] and a side
    has a level [i], puts the price and the amount of the i-th bid beside
    those of the i-th ask; a side that has no level [i] gives two NaN
    cells. *)
Theorem joined_df_row lines order_book i :
  0 <= lines -> (i < Z.to_nat lines)%nat ->
  is_Some ((snapshot order_book).1 !! i) \/ is_Some ((snapshot order_book).2 !! i) ->
  Pandas.rows (joined_df lines order_book) !! i
    = Some (side_cells ((snapshot order_book).1 !! i)
              ++ side_cells ((snapshot order_book).2 !! i)).
Proof.
  intros Hpos Hi Hsome.
  assert (Hn : (i < length (Pandas.rows (joined_df lines order_book)))%nat).
  { rewrite joined_df_rows. cbv zeta.
    rewrite length_fmap, length_seq, !head_rows, !length_take, !length_fmap.
    assert (H0 : (0 <=? lines) = true) by by apply Z.leb_le. rewrite H0.
    destruct Hsome as [H|H]; apply lookup_lt_is_Some in H; lia. }
  rewrite joined_df_rows in *. cbv zeta in *.
  rewrite length_fmap, length_seq in Hn.
  rewrite list_lookup_fmap, lookup_seq_lt by done. cbn [fmap option_fmap option_map Nat.add].
  by rewrite !head_row_cells.
Qed.

End TableProperties.

(** ** The lines of the rendered text *)

Section TextProperties.
Context {D : Type}.
Variable fmt : D -> string.


Lemma append_nil (b : string) : EmptyString +:+ b = b.
Proof. reflexivity. Qed.












End TextProperties.

(** ** The logger *)



(** ** The decimal numerals of stdpp hold no line feed *)



(** ** Concrete runs of the further properties *)

Lemma handle_only_when_ready_witness :
  _ready (run Sample.fresh Sample.three_ticks).1 = true.
Proof.
  apply (handle_only_when_ready Sample.fresh Sample.three_ticks 8%nat).
  - intros _. reflexivity.
  - reflexivity.
Defined.

Lemma ready_iff_task_created_witness :
  tasks_created (run Sample.fresh Sample.three_ticks).2 = 1%nat.
Proof.
  apply (proj1 (ready_iff_task_created pretty Sample.fresh Sample.three_ticks
                  eq_refl eq_refl)).
  reflexivity.
Defined.

Lemma stop_cancels_created_task_witness :
  (tasks_cancelled (run Sample.fresh Scenario.launch_then_stop).2
   <= tasks_created (run Sample.fresh Scenario.launch_then_stop).2 <= 1)%nat.
Proof.
  apply (stop_cancels_created_task Sample.fresh Scenario.launch_then_stop);
    reflexivity.
Defined.

Lemma failing_launch_is_retried_witness :
  run Sample.fresh Scenario.failing_ticks
    = (Sample.fresh, flat_map launch_failure Scenario.failing_ticks).
Proof.
  apply (failing_launch_is_retried Sample.fresh Scenario.failing_ticks);
    try reflexivity; repeat constructor.
Defined.

Lemma stop_before_launch_is_harmless_witness :
  (run Sample.fresh Scenario.early_stop).1 = Sample.fresh.
Proof.
  apply (stop_before_launch_is_harmless Sample.fresh Scenario.early_stop
           (Sample.binance true) 1%nat 1);
    try reflexivity; repeat constructor.
Defined.

Lemma show_order_book_cancelled_witness :
  show_order_book pretty Sample.fresh (Sample.binance true)
    ([Resumed false (Sample.binance true)] ++ [Cancel])
    = (Scenario.one_render, Cancelled).
Proof.
  apply (show_order_book_cancelled pretty Sample.fresh (Sample.binance true)
           [Resumed false (Sample.binance true)] Scenario.one_render []).
  reflexivity.
Defined.

Lemma show_order_book_pair_dropped_witness :
  show_order_book pretty Sample.fresh (Sample.binance true)
    ([Resumed false (Sample.binance true)] ++ [Resumed true Sample.kucoin])
    = ([StopLiveUpdate; SetLiveUpdates true] ++ [ClsDisplayDelay Sample.shown (1 # 2)],
       Raised (KeyError "BTC-USDT")).
Proof.
  apply (show_order_book_pair_dropped pretty Sample.fresh (Sample.binance true)
           [Resumed false (Sample.binance true)]
           [StopLiveUpdate; SetLiveUpdates true] Sample.shown (1 # 2)
           Sample.kucoin []);
    reflexivity.
Defined.

Lemma show_order_book_renders_fresh_witness :
  show_order_book pretty Sample.fresh (Sample.binance true)
    (Resumed false (Sample.binance true) :: (Resumed true <$> [Sample.binance false]))
    = (StopLiveUpdate :: SetLiveUpdates true
         :: (paced <$> [Scenario.text; Scenario.text]),
       Suspended).
Proof.
  apply (show_order_book_renders_fresh pretty Sample.fresh (Sample.binance true)
           false (Sample.binance true) [Sample.binance false]
           [Scenario.text; Scenario.text]).
  - exists Sample.book. reflexivity.
  - repeat constructor.
Defined.

Lemma show_order_book_no_raise_while_listed_witness :
  (show_order_book pretty Sample.fresh (Sample.binance true)
     [Resumed true (Sample.binance true); Resumed true (Sample.binance false)]).2
    <> Raised (KeyError "BTC-USDT").
Proof.
  apply (show_order_book_no_raise_while_listed pretty Sample.fresh (Sample.binance true)).
  - exists Sample.book. reflexivity.
  - repeat constructor.
Defined.

Lemma joined_df_row_count_witness :
  length (Pandas.rows (joined_df 2 Scenario.thin_book)) = 2%nat.
Proof.
  apply (proj1 (proj1 (joined_df_row_count 2 Scenario.thin_book) ltac:(lia))).
Defined.

Lemma joined_df_row_witness :
  Pandas.rows (joined_df 2 Scenario.thin_book) !! 1%nat
    = Some [None; None; Some 102; Some 2].
Proof.
  apply (joined_df_row 2 Scenario.thin_book 1).
  - lia.
  - simpl. lia.
  - right. eexists. reflexivity.
Defined.


